(** * BoR-SDK: proof-of-reasoning chains, embedded and verified

    A shallow embedding of [bor/core.py], [bor/verify.py], [bor/store.py]
    and the two step functions of [tests/test_verify.py].

    Python objects become Rocq values, methods that mutate [self] return the
    updated object, and a raised exception is the [Raise] branch of [result].
    The first half of the file holds the definitions, the second half the
    theorems about them. *)

From Stdlib Require Import ZArith String Ascii List Permutation Lia.
From stdpp Require Import base option list strings gmap.

Import ListNotations.
Set Warnings "-register-all".
Local Open Scope string_scope.
Local Open Scope list_scope.

(** ** Python data *)

(** The values a run works on: what [json.loads] can return, which is also
    what the states and configurations of the test-suite are made of.
    Python integers are unbounded, hence [Z]; a [dict] keeps its items in
    insertion order. Floating-point numbers are left out. *)
Inductive value : Type :=
| VNone
| VBool (b : bool)
| VInt (n : Z)
| VStr (s : string)
| VList (items : list value)
| VDict (items : list (string * value)).

(** [bool(v)]: the truth value Python gives to [v] in an [if]. *)
Definition truthy (v : value) : bool :=
  match v with
  | VNone => false
  | VBool b => b
  | VInt n => negb (n =? 0)%Z
  | VStr s => negb (String.eqb s "")
  | VList l => match l with [] => false | _ => true end
  | VDict d => match d with [] => false | _ => true end
  end.

(** [s == v] for a [str] [s]: a string equals only an equal string. *)
Definition py_eq_str (s : string) (v : value) : bool :=
  match v with
  | VStr s' => String.eqb s s'
  | _ => false
  end.

(** [l == v] for a list [l] of [str]: list equality is element-wise. *)
Fixpoint py_eq_strs (l : list string) (items : list value) : bool :=
  match l, items with
  | [], [] => true
  | s :: l', v :: items' => py_eq_str s v && py_eq_strs l' items'
  | _, _ => false
  end.

Definition py_eq_str_list (l : list string) (v : value) : bool :=
  match v with
  | VList items => py_eq_strs l items
  | _ => false
  end.

(** Item lookup of a [dict]. *)
Fixpoint dict_lookup (k : string) (d : list (string * value)) : option value :=
  match d with
  | [] => None
  | (k', v) :: d' => if String.eqb k k' then Some v else dict_lookup k d'
  end.

(** [''.join(l)] *)
Definition join (l : list string) : string := foldr String.append "" l.

(** ** Exceptions *)

(** The message of a [DeterminismError], kept structured: which of the
    [raise] sites produced it and, for a failed step, the name of the
    function and the exception it wraps. *)
Inductive determinism_msg (E : Type) : Type :=
| StepNotCallable
| StepFailed (fn_name : string) (cause : E)
| NoStepsAdded
| NotFinalized
| NoStagesSupplied.

Arguments StepNotCallable {E}.
Arguments StepFailed {E} fn_name cause.
Arguments NoStepsAdded {E}.
Arguments NotFinalized {E}.
Arguments NoStagesSupplied {E}.

(** The message of a [HashMismatchError]. *)
Inductive mismatch_msg : Type :=
| ReasoningDiverged
| VerificationFailed (stored : value) (recomputed : string).

(** The exception classes the embedded code raises or lets through.
    [DeterminismError] and [HashMismatchError] are the two classes of
    [bor/exceptions.py]; the others are Python's own. *)
Inductive exn : Type :=
| DeterminismError (msg : determinism_msg exn)
| HashMismatchError (msg : mismatch_msg)
| FileNotFoundError (what : string)
| JSONDecodeError
| AttributeError (attr : string)
| KeyError (key : string)
| TypeError
| ZeroDivisionError
| OperationalError.

(** A computation either returns or raises. *)
Inductive result (A : Type) : Type :=
| Ok (a : A)
| Raise (e : exn).

Arguments Ok {A} a.
Arguments Raise {A} e.

Definition bind {A B : Type} (m : result A) (k : A -> result B) : result B :=
  match m with
  | Ok a => k a
  | Raise e => Raise e
  end.

Notation "'let*' x := m 'in' k" := (bind m (fun x => k))
  (at level 10, x pattern, m at level 100, k at level 200).

(** [for x in xs: acc = f(acc, x)], stopping at the first exception. *)
Fixpoint for_each {A S : Type} (f : S -> A -> result S) (xs : list A) (acc : S)
  : result S :=
  match xs with
  | [] => Ok acc
  | x :: xs' => let* acc' := f acc x in for_each f xs' acc'
  end.

(** What can be handed to [add_step]. A step function is a Python function:
    it has a [__name__] and, called on (state, config, version), returns a
    value or raises an [Exception]. Anything else is data, for which
    [callable] is false. *)
Inductive pyobject : Type :=
| PyFunction (name : string) (body : value -> value -> string -> result value)
| PyData (v : value).

Definition callable (fn : pyobject) : bool :=
  match fn with
  | PyFunction _ _ => true
  | PyData _ => false
  end.

(** ** bor.hash_utils *)

(** Modelled from the spec: [bor/hash_utils.py] ([content_hash],
    [canonical_bytes]) is not among the sources. The specification (4.2)
    makes the fingerprinter a pure function of its payload whose output is a
    fixed-length printable identifier; that is all that is assumed of it
    here. Freedom from collisions is not part of the interface: no function
    from all payloads to strings of one length has it, so theorems that need
    it name the two inputs that must not collide. *)
Class HashUtils : Type := {
  content_hash : value -> string;
  digest_length : nat;
  content_hash_length : forall v, String.length (content_hash v) = digest_length
}.

(** ** bor.core *)

Module BoRStep.

(** [@dataclass class BoRStep]; [fingerprint] defaults to [None]. *)
Record t : Type := make {
  fn_name : string;
  input_state : value;
  config : value;
  code_version : string;
  fingerprint : option string
}.

Section WithHash.
Context `{HashUtils}.

(** The dictionary [compute_fingerprint] hashes. *)
Definition payload (self : t) : value :=
  VDict [ ("fn", VStr (fn_name self));
          ("input", input_state self);
          ("config", config self);
          ("version", VStr (code_version self)) ].

(** [compute_fingerprint]: stores the fingerprint in the step and returns
    it; the result pairs the returned string with the updated step. *)
Definition compute_fingerprint (self : t) : string * t :=
  let fp := content_hash (payload self) in
  (fp, make (fn_name self) (input_state self) (config self)
            (code_version self) (Some fp)).

End WithHash.
End BoRStep.

(** [@dataclass class Proof]. Python does not enforce the annotations
    [List[str]] and [str]: [bor.core] only builds proofs that respect them,
    [bor.store] fills the two fields with whatever [json.loads] returned.
    The record is therefore parametric, with the two instances used. *)
Record Proof_ (H M : Type) : Type := mkProof {
  stage_hashes : H;
  master : M
}.

Arguments mkProof {H M} stage_hashes master.
Arguments stage_hashes {H M} p.
Arguments master {H M} p.

Abbreviation BoRProof := (Proof_ (list string) string).
Abbreviation LoadedProof := (Proof_ value value).

Module BoRRun.

(** The attributes [__init__] gives a run. *)
Record t : Type := make {
  initial_state : value;
  config : value;
  code_version : string;
  steps : list BoRStep.t;
  _final_state : value;
  proof : option BoRProof
}.

(** [BoRRun(S0, C, V)] *)
Definition init (S0 C : value) (V : string) : t :=
  make S0 C V [] VNone None.

Section WithHash.
Context `{HashUtils}.

(** [add_step(fn)]; the returned run is [self] after the call.
    [callable(fn)] fails on data and holds of functions. *)
Definition add_step (self : t) (fn : pyobject) : result t :=
  match fn with
  | PyData _ => Raise (DeterminismError StepNotCallable)
  | PyFunction name body =>
      let prev_state :=
        match steps self with
        | [] => initial_state self
        | _ :: _ => _final_state self
        end in
      match body prev_state (config self) (code_version self) with
      | Raise e => Raise (DeterminismError (StepFailed name e))
      | Ok output_state =>
          let step :=
            BoRStep.make name prev_state (config self) (code_version self) None in
          let step := snd (BoRStep.compute_fingerprint step) in
          Ok (make (initial_state self) (config self) (code_version self)
                   (steps self ++ [step]) output_state (proof self))
      end
  end.

(** [[s.fingerprint for s in self.steps]] as a list of [str]; [None] when
    some step has no fingerprint yet, in which case [''.join] raises
    [TypeError]. *)
Definition fingerprints (self : t) : option (list string) :=
  mapM BoRStep.fingerprint (steps self).

(** [finalize()]: the proof it returns and [self] with the proof cached. *)
Definition finalize (self : t) : result (BoRProof * t) :=
  match steps self with
  | [] => Raise (DeterminismError NoStepsAdded)
  | _ :: _ =>
      match fingerprints self with
      | None => Raise TypeError
      | Some fps =>
          let concatenated := join fps in
          let master := content_hash (VStr concatenated) in
          let p := mkProof fps master in
          Ok (p, make (initial_state self) (config self) (code_version self)
                      (steps self) (_final_state self) (Some p))
      end
  end.

(** [verify()]. An instance of a dataclass is always true, so
    [not self.proof] holds exactly when the proof is [None]. After
    [finalize] has run, [self.proof] is read from the updated run. *)
Definition verify (self : t) : result (bool * t) :=
  match proof self with
  | None => Raise (DeterminismError NotFinalized)
  | Some _ =>
      let* (recomputed, self') := finalize self in
      match proof self' with
      | None => Raise (AttributeError "master")
      | Some cached =>
          if negb (String.eqb (master recomputed) (master cached))
          then Raise (HashMismatchError ReasoningDiverged)
          else Ok (true, self')
      end
  end.

(** The methods that change a run, as a transition relation: a call that
    raises leaves the run as it was, so only the returning calls matter. *)
Inductive step : t -> t -> Prop :=
| step_add_step self fn self' :
    add_step self fn = Ok self' -> step self self'
| step_finalize self p self' :
    finalize self = Ok (p, self') -> step self self'
| step_verify self b self' :
    verify self = Ok (b, self') -> step self self'.

(** The runs a program reaches through the constructor and the methods. *)
Inductive reachable : t -> Prop :=
| reachable_init S0 C V : reachable (init S0 C V)
| reachable_step self self' : reachable self -> step self self' -> reachable self'.

End WithHash.
End BoRRun.

(** ** The file system and the database *)

(** The text of a file or of a TEXT column, identified by what [json.loads]
    makes of it: [Some v] when it decodes to [v], [None] when decoding raises
    [JSONDecodeError]. [json.dumps] of a value is a text that decodes to it. *)
Abbreviation json_text := (option value).

Definition json_loads (txt : json_text) : result value :=
  match txt with
  | Some v => Ok v
  | None => Raise JSONDecodeError
  end.

Definition json_dumps (v : value) : json_text := Some v.

(** A row of the table [proofs]; the timestamp column is never read by
    [load] and is left out. *)
Record row : Type := mkRow {
  row_id : nat;
  row_label : string;
  row_master : value;
  row_stage_hashes : json_text
}.

(** What the code reads and writes outside the process: the files, by path,
    and for each SQLite database file the rows of its table [proofs], in
    insertion order (absent: the file holds no such table). *)
Record World : Type := mkWorld {
  files : gmap string json_text;
  tables : gmap string (list row)
}.

(** [d.get(key, default)]: only a [dict] has the method. *)
Definition dict_get (d : value) (key : string) (default : value) : result value :=
  match d with
  | VDict items =>
      match dict_lookup key items with
      | Some v => Ok v
      | None => Ok default
      end
  | _ => Raise (AttributeError "get")
  end.

(** [d[key]] *)
Definition dict_item (d : value) (key : string) : result value :=
  match d with
  | VDict items =>
      match dict_lookup key items with
      | Some v => Ok v
      | None => Raise (KeyError key)
      end
  | _ => Raise TypeError
  end.

(** ** bor.verify *)

(** The two lines [verify_proof] prints. *)
Inductive console_line : Type :=
| StageHashesDiffer
| VerificationSuccessful.

Section Verify.
Context `{HashUtils}.

(** [verify_proof(proof_path, S0, C, V, stages)]: what it returns together
    with what it has printed. Nothing is printed before the last [raise]. *)
Definition verify_proof (w : World) (proof_path : string)
    (S0 C : value) (V : string) (stages : list pyobject)
  : result (bool * list console_line) :=
  match files w !! proof_path with
  | None => Raise (FileNotFoundError proof_path)
  | Some text =>
      let* proof_data := json_loads text in
      let* stored_master := dict_get proof_data "master" VNone in
      let* stored_stage_hashes := dict_get proof_data "stage_hashes" (VList []) in
      let run := BoRRun.init S0 C V in
      let* run := for_each BoRRun.add_step stages run in
      let* (new_proof, run) := BoRRun.finalize run in
      if negb (py_eq_str (master new_proof) stored_master)
      then Raise (HashMismatchError
                    (VerificationFailed stored_master (master new_proof)))
      else
        let warning :=
          if truthy stored_stage_hashes
             && negb (py_eq_str_list (stage_hashes new_proof) stored_stage_hashes)
          then [StageHashesDiffer] else [] in
        Ok (true, warning ++ [VerificationSuccessful])
  end.

End Verify.

(** ** bor.store *)

Module ProofStore.

(** The attributes of a store; [db_path] is [root / "proofs.db"]. Paths are
    joined as text, and directories are not part of [World]: the [mkdir] of
    [__init__] leaves no trace in it. *)
Record t : Type := make {
  root : string;
  use_sqlite : bool
}.

Definition db_path (self : t) : string := root self +:+ "/proofs.db".

(** [self.root / f"{label}.json"] *)
Definition json_path (self : t) (label : string) : string :=
  root self +:+ "/" +:+ label +:+ ".json".

(** [_init_db]: CREATE TABLE IF NOT EXISTS. *)
Definition _init_db (w : World) (self : t) : World :=
  match tables w !! db_path self with
  | Some _ => w
  | None => mkWorld (files w) (<[db_path self := []]> (tables w))
  end.

(** [ProofStore(root, use_sqlite)] *)
Definition init (w : World) (root : string) (use_sqlite : bool) : World * t :=
  let self := make root use_sqlite in
  if use_sqlite then (_init_db w self, self) else (w, self).

(** AUTOINCREMENT: one more than every id in the table. *)
Definition next_id (rows : list row) : nat :=
  S (foldr Nat.max 0 (map row_id rows)).

(** [save(label, proof)]: the world after the call and the path returned. *)
Definition save (w : World) (self : t) (label : string) (p : LoadedProof)
  : result (World * string) :=
  if use_sqlite self then
    match tables w !! db_path self with
    | None => Raise OperationalError
    | Some rows =>
        let r := mkRow (next_id rows) label (master p)
                       (json_dumps (stage_hashes p)) in
        Ok (mkWorld (files w) (<[db_path self := rows ++ [r]]> (tables w)),
            db_path self)
    end
  else
    let p_ := json_path self label in
    let data := VDict [ ("label", VStr label); ("master", master p);
                        ("stage_hashes", stage_hashes p) ] in
    Ok (mkWorld (<[p_ := json_dumps data]> (files w)) (tables w), p_).

(** SELECT ... WHERE label=? ORDER BY id DESC LIMIT 1, then [fetchone]. *)
Definition select_latest (label : string) (rows : list row) : option row :=
  foldl (fun best r =>
           if String.eqb (row_label r) label then
             match best with
             | Some b => if (row_id b <? row_id r)%nat then Some r else Some b
             | None => Some r
             end
           else best)
        None rows.

(** [load(label)] *)
Definition load (w : World) (self : t) (label : string) : result LoadedProof :=
  if use_sqlite self then
    match tables w !! db_path self with
    | None => Raise OperationalError
    | Some rows =>
        match select_latest label rows with
        | None => Raise (FileNotFoundError label)
        | Some r =>
            let* hashes := json_loads (row_stage_hashes r) in
            Ok (mkProof hashes (row_master r))
        end
    end
  else
    match files w !! json_path self label with
    | None => Raise (FileNotFoundError label)
    | Some text =>
        let* d := json_loads text in
        let* hashes := dict_item d "stage_hashes" in
        let* m := dict_item d "master" in
        Ok (mkProof hashes m)
    end.

(** A label is in the store when [save] has left something under it: the
    file of that label in JSON mode, a row of that label in SQLite mode. *)
Definition stored (w : World) (self : t) (label : string) : bool :=
  if use_sqlite self then
    match tables w !! db_path self with
    | None => false
    | Some rows => existsb (fun r => String.eqb (row_label r) label) rows
    end
  else bool_decide (is_Some (files w !! json_path self label)).

(** The store has been set up: in SQLite mode its table exists, which is
    what [__init__] sees to. *)
Definition ready (w : World) (self : t) : Prop :=
  use_sqlite self = true -> is_Some (tables w !! db_path self).

End ProofStore.

(** A proof built by [bor.core], as [bor.store] and [json.dumps] see it. *)
Definition proof_values (p : BoRProof) : LoadedProof :=
  mkProof (VList (VStr <$> stage_hashes p)) (VStr (master p)).

(** ** tests/test_verify.py *)

Module Tests.

(** The integer a number stands for in arithmetic ([bool] is a subclass of
    [int]). *)
Definition as_int (v : value) : option Z :=
  match v with
  | VInt n => Some n
  | VBool b => Some (Z.b2z b)
  | _ => None
  end.

(** [a + b] *)
Definition py_add (a b : value) : result value :=
  match a, b with
  | VStr s, VStr t => Ok (VStr (s +:+ t))
  | VList l, VList m => Ok (VList (l ++ m))
  | _, _ =>
      match as_int a, as_int b with
      | Some x, Some y => Ok (VInt (x + y))
      | _, _ => Raise TypeError
      end
  end.

(** [def add(x, C, V): return x + C.get("offset", 0)] *)
Definition add_body (x C : value) (V : string) : result value :=
  let* offset := dict_get C "offset" (VInt 0) in
  py_add x offset.

(** [def square(x, C, V): return x * x]; the product of a value with
    itself exists for numbers only. *)
Definition square_body (x C : value) (V : string) : result value :=
  match as_int x with
  | Some n => Ok (VInt (n * n))
  | None => Raise TypeError
  end.

Definition add : pyobject := PyFunction "add" add_body.
Definition square : pyobject := PyFunction "square" square_body.

(** The run of both tests: [S0=3], [C={"offset": 2}], [V="v1.0"]. *)
Definition S0 : value := VInt 3.
Definition C : value := VDict [("offset", VInt 2)].
Definition V : string := "v1.0".
Definition stages : list pyobject := [add; square].

(** [proof.master[:-1]] *)
Fixpoint drop_last (m : string) : string :=
  match m with
  | EmptyString => EmptyString
  | String a EmptyString => EmptyString
  | String a m' => String a (drop_last m')
  end.

(** [altered = proof.master[:-1] + "x"] *)
Definition altered (m : string) : string := drop_last m +:+ "x".

(** [json.dumps({"stage_hashes": ..., "master": ...})], written to a file. *)
Definition proof_file (hashes : list string) (m : string) : json_text :=
  json_dumps (VDict [ ("stage_hashes", VList (VStr <$> hashes));
                      ("master", VStr m) ]).

End Tests.

(** ** Altering a stored master *)

(** [m'] is [m] with exactly one character replaced by a different one. *)
Inductive one_char_altered : string -> string -> Prop :=
| altered_here a b s : a <> b -> one_char_altered (String a s) (String b s)
| altered_later a s s' :
    one_char_altered s s' -> one_char_altered (String a s) (String a s').

(** The last character of a string. *)
Fixpoint last_char (m : string) : option ascii :=
  match m with
  | EmptyString => None
  | String a EmptyString => Some a
  | String _ m' => last_char m'
  end.

(** ** Steps that keep the state *)

(** [def name(state, C, V): return state] *)
Definition returns_state (name : string) : pyobject :=
  PyFunction name (fun state _ _ => Ok state).

(** ** A small hash for running the definitions *)

Module Demo.

(** A rolling checksum of the characters of a string, below 2^16. *)
Fixpoint checksum (acc : N) (s : string) : N :=
  match s with
  | EmptyString => acc
  | String a s' => checksum ((acc * 31 + N_of_ascii a + 1) mod 65536)%N s'
  end.

(** The binary digits of a number, lowest first. *)
Fixpoint bits (p : positive) : string :=
  match p with
  | xH => "1"
  | xO p' => String "0" (bits p')
  | xI p' => String "1" (bits p')
  end.

Definition digits (n : Z) : string :=
  match n with
  | Z0 => "0"
  | Zpos p => bits p
  | Zneg p => String "-" (bits p)
  end.

Definition render_str (s : string) : string :=
  "s" +:+ digits (Z.of_nat (String.length s)) +:+ ":" +:+ s.

(** A rendering of a value that tells its constructors apart. *)
Fixpoint render (v : value) : string :=
  match v with
  | VNone => "n"
  | VBool true => "t"
  | VBool false => "f"
  | VInt n => "i" +:+ digits n
  | VStr s => render_str s
  | VList items =>
      "[" +:+ (fix go (l : list value) : string :=
                match l with
                | [] => ""
                | x :: l' => render x +:+ "," +:+ go l'
                end) items +:+ "]"
  | VDict items =>
      "{" +:+ (fix go (l : list (string * value)) : string :=
                match l with
                | [] => ""
                | (k, x) :: l' => render_str k +:+ "=" +:+ render x +:+ "," +:+ go l'
                end) items +:+ "}"
  end.

(** A hexadecimal digit. *)
Definition hex_digit (n : N) : ascii :=
  match n with
  | 0 => "0" | 1 => "1" | 2 => "2" | 3 => "3" | 4 => "4" | 5 => "5"
  | 6 => "6" | 7 => "7" | 8 => "8" | 9 => "9" | 10 => "a" | 11 => "b"
  | 12 => "c" | 13 => "d" | 14 => "e" | _ => "f"
  end%N%char.

(** Four hexadecimal digits per value: the checksum of its rendering. *)
Definition hash (v : value) : string :=
  let h := checksum 7 (render v) in
  String (hex_digit (h / 4096))
    (String (hex_digit ((h / 256) mod 16))
       (String (hex_digit ((h / 16) mod 16))
          (String (hex_digit (h mod 16)) EmptyString))).

#[local] Instance hash_utils : HashUtils :=
  {| content_hash := hash;
     digest_length := 4;
     content_hash_length := fun _ => eq_refl |}.

(** The run of the tests under this hash, its proof, and the run after
    [finalize()]. *)
Definition recorded_run : BoRRun.t :=
  match for_each BoRRun.add_step Tests.stages
          (BoRRun.init Tests.S0 Tests.C Tests.V) with
  | Ok r => r
  | Raise _ => BoRRun.init Tests.S0 Tests.C Tests.V
  end.

Definition recorded_proof : BoRProof :=
  match BoRRun.finalize recorded_run with
  | Ok (p, _) => p
  | Raise _ => mkProof [] ""
  end.

Definition finalized_run : BoRRun.t :=
  match BoRRun.finalize recorded_run with
  | Ok (_, r) => r
  | Raise _ => recorded_run
  end.


(** A world whose only file is [proof.json], with the given content. *)
Definition world_with (content : json_text) : World :=
  mkWorld {[ "proof.json" := content ]} ∅.

(** The proof as [test_verify_recomputes_success] stores it, as
    [test_verify_detects_mismatch] stores it, and with a [stage_hashes] that
    was emptied. *)
Definition good_file : json_text :=
  Tests.proof_file (stage_hashes recorded_proof) (master recorded_proof).

Definition bad_file : json_text :=
  Tests.proof_file (stage_hashes recorded_proof)
                   (Tests.altered (master recorded_proof)).

Definition emptied_file : json_text :=
  Tests.proof_file [] (master recorded_proof).

(** A file whose stage hashes were overwritten and whose master is intact. *)
Definition tampered_file : json_text :=
  Tests.proof_file ["0000"; "1111"] (master recorded_proof).

(** Two orders of the same six state-keeping steps, and the proof file of
    a run in the first order. *)
Definition first_order : list pyobject :=
  returns_state <$> ["hold"; "keep"; "keep"; "keep"; "keep"; "hold"].

Definition second_order : list pyobject :=
  returns_state <$> ["keep"; "hold"; "keep"; "keep"; "hold"; "keep"].

Definition first_order_file : json_text :=
  match for_each BoRRun.add_step first_order
          (BoRRun.init Tests.S0 Tests.C Tests.V) with
  | Ok r =>
      match BoRRun.finalize r with
      | Ok (p, _) => Tests.proof_file (stage_hashes p) (master p)
      | Raise _ => None
      end
  | Raise _ => None
  end.

(** A store, in either mode, after [save("run-1", proof)]. *)
Definition store (use_sqlite : bool) : ProofStore.t :=
  ProofStore.make ".bor_store" use_sqlite.

Definition saved_world (use_sqlite : bool) : World :=
  let w := (ProofStore.init (mkWorld ∅ ∅) ".bor_store" use_sqlite).1 in
  match ProofStore.save w (store use_sqlite) "run-1"
          (proof_values recorded_proof) with
  | Ok (w', _) => w'
  | Raise _ => w
  end.

End Demo.

(** ** Vocabulary of the statements *)

Section Vocabulary.
Context `{HashUtils}.

(** A step as [add_step] leaves it: fingerprinted from its own fields. *)
Definition recorded (s : BoRStep.t) : Prop :=
  BoRStep.fingerprint s = Some (content_hash (BoRStep.payload s)).

(** The state [add_step] hands to the function. *)
Definition current_state (r : BoRRun.t) : value :=
  match BoRRun.steps r with
  | [] => BoRRun.initial_state r
  | _ :: _ => BoRRun._final_state r
  end.

(** What holds of every run built through the constructor and the methods:
    each step carries its fingerprint, and a cached proof means there are
    steps. *)
Definition run_inv (r : BoRRun.t) : Prop :=
  Forall recorded (BoRRun.steps r) /\
  (is_Some (BoRRun.proof r) -> BoRRun.steps r <> []).

(** A string that is the fingerprint of some payload. *)
Definition is_fingerprint (fp : string) : Prop :=
  exists payload : value, fp = content_hash payload.


(** The fingerprint [add_step] gives to a step of the function [name]
    entered in state [S] of a run with configuration [C] and version [V]. *)
Definition fingerprint_of (name : string) (S C : value) (V : string) : string :=
  content_hash (BoRStep.payload (BoRStep.make name S C V None)).

(** The hash tells two function names apart on some input. *)
Definition separates_names : Prop :=
  exists (n1 n2 : string) (S C : value) (V : string),
    fingerprint_of n1 S C V <> fingerprint_of n2 S C V.


End Vocabulary.




(** ** bor.core, continued *)

(** [summary()]: the dictionary it returns. A step without fingerprint is
    listed as [None], and so is [HMASTER] before the first [finalize()]. *)
Definition summary (self : BoRRun.t) : value :=
  VDict [ ("initial_state", BoRRun.initial_state self);
          ("num_steps", VInt (Z.of_nat (length (BoRRun.steps self))));
          ("fingerprints",
             VList ((fun s => match BoRStep.fingerprint s with
                              | Some fp => VStr fp
                              | None => VNone
                              end) <$> BoRRun.steps self));
          ("HMASTER", match BoRRun.proof self with
                      | Some p => VStr (master p)
                      | None => VNone
                      end) ].


Section Recording.
Context `{HashUtils}.


End Recording.

(** ** bor.verify, the command line *)

(** What [_cli] can raise: the exceptions of the library and, from Python
    itself, the [ValueError] of unpacking a name without a dot and whatever
    the import machinery raises. *)
Inductive cli_exn : Type :=
| Uncaught (e : exn)
| ValueError
| ImportFailure (what : string).

(** A computation of the command line returns or raises a [cli_exn]. *)
Definition cli_result (A : Type) : Type := cli_exn + A.

Definition cli_bind {A B : Type} (m : cli_result A) (k : A -> cli_result B)
  : cli_result B :=
  match m with
  | inr a => k a
  | inl e => inl e
  end.

(** A call into the library, seen from the command line. *)
Definition lift {A : Type} (m : result A) : cli_result A :=
  match m with
  | Ok a => inr a
  | Raise e => inl (Uncaught e)
  end.

(** The namespace [parse_args] returns. The defaults of [_cli] are the
    texts ["{}"] for [config] and [initial] and ["v1.0"] for [version];
    [stages] is [None] when the option is not given. *)
Record cli_args : Type := mkArgs {
  arg_proof : string;
  arg_config : json_text;
  arg_version : string;
  arg_initial : json_text;
  arg_stages : option (list string)
}.

(** [s.rsplit(".", 1)] when it has two parts: what stands before the last
    dot and what stands after it. *)
Fixpoint rsplit_dot (s : string) : option (string * string) :=
  match s with
  | EmptyString => None
  | String c s' =>
      match rsplit_dot s' with
      | Some (m, f) => Some (String c m, f)
      | None => if Ascii.eqb c "." then Some (EmptyString, s') else None
      end
  end.

(** ["." in s] *)
Fixpoint has_dot (s : string) : bool :=
  match s with
  | EmptyString => false
  | String c s' => Ascii.eqb c "." || has_dot s'
  end.

(** Python's import machinery, which is not code of this repository:
    [importlib.import_module] and [getattr] on a module, either of which
    returns or raises. *)
Class Importer : Type := {
  pymodule : Type;
  import_module : string -> cli_result pymodule;
  getattr : pymodule -> string -> cli_result pyobject
}.

Section Cli.
Context `{HashUtils} `{Importer}.

(** The body of the loop over [args.stages]: split the name, import the
    module, fetch the attribute. *)
Definition resolve_stage (s : string) : cli_result pyobject :=
  match rsplit_dot s with
  | None => inl ValueError
  | Some (mod_name, fn_name) =>
      cli_bind (import_module mod_name) (fun m => getattr m fn_name)
  end.

(** The loop: the functions in the order of the names, or the first
    exception. *)
Fixpoint resolve_stages (names : list string) : cli_result (list pyobject) :=
  match names with
  | [] => inr []
  | s :: names' =>
      cli_bind (resolve_stage s) (fun fn =>
      cli_bind (resolve_stages names') (fun fns => inr (fn :: fns)))
  end.

(** [not args.stages] *)
Definition no_stages (stages : option (list string)) : bool :=
  match stages with
  | None => true
  | Some [] => true
  | Some (_ :: _) => false
  end.

(** [_cli()] on parsed arguments: it returns [None], so what is kept of a
    call that returns is what it printed. *)
Definition _cli (w : World) (args : cli_args) : cli_result (list console_line) :=
  cli_bind (lift (json_loads (arg_initial args))) (fun S0 =>
  cli_bind (lift (json_loads (arg_config args))) (fun C =>
  let V := arg_version args in
  if no_stages (arg_stages args)
  then inl (Uncaught (DeterminismError NoStagesSupplied))
  else
    cli_bind (resolve_stages (default [] (arg_stages args))) (fun stages =>
    cli_bind (lift (verify_proof w (arg_proof args) S0 C V stages)) (fun r =>
    inr r.2)))).

End Cli.

(** An interpreter that knows one module, [steps], with the two functions
    of the tests, the two state-keeping functions and one constant. *)
Module DemoImport.

Fixpoint lookup_attr (attr : string) (m : list (string * pyobject))
  : option pyobject :=
  match m with
  | [] => None
  | (k, fn) :: m' => if String.eqb k attr then Some fn else lookup_attr attr m'
  end.

#[local] Instance importer : Importer :=
  {| pymodule := list (string * pyobject);
     import_module := fun name =>
       if String.eqb name "steps"
       then inr [ ("add", Tests.add); ("square", Tests.square);
                  ("keep", returns_state "keep"); ("hold", returns_state "hold");
                  ("LIMIT", PyData (VInt 10)) ]
       else inl (ImportFailure name);
     getattr := fun m attr =>
       match lookup_attr attr m with
       | Some fn => inr fn
       | None => inl (Uncaught (AttributeError attr))
       end |}.

Definition args (stages : option (list string)) : cli_args :=
  mkArgs "proof.json" (Some Tests.C) Tests.V (Some Tests.S0) stages.

End DemoImport.

(** Runs, stages and worlds on which the later theorems are tried, all
    under the four-digit hash. *)
Module Fixtures.

(** The run of the tests, finalized, with [square] added once more. *)
Definition extended_run : BoRRun.t :=
  match BoRRun.add_step (H := Demo.hash_utils) Demo.finalized_run Tests.square with
  | Ok r => r
  | Raise _ => Demo.finalized_run
  end.

(** That run after [verify()]. *)
Definition verified_run : BoRRun.t :=
  match BoRRun.verify (H := Demo.hash_utils) extended_run with
  | Ok (_, r) => r
  | Raise _ => extended_run
  end.

(** Stages of which the second raises on a string. *)
Definition failing_stages : list pyobject :=
  [returns_state "keep"; Tests.square; Tests.add].

(** The proof of the tests as [save] writes it in JSON mode. *)
Definition store_file : json_text :=
  Some (VDict [ ("label", VStr "run-1");
                ("master", VStr (master Demo.recorded_proof));
                ("stage_hashes", VList (VStr <$> stage_hashes Demo.recorded_proof)) ]).



End Fixtures.

(** * Properties *)

(** ** Strings and comparisons *)


Lemma append_empty_r (s : string) : s +:+ "" = s.
Proof.
  induction s as [|c s IH]; [done|].
  change (String c (s +:+ "") = String c s). by rewrite IH.
Qed.


Lemma py_eq_str_true (s : string) (v : value) :
  py_eq_str s v = true <-> v = VStr s.
Proof.
  destruct v; simpl; try (split; [discriminate | intros [=]]).
  rewrite String.eqb_eq. split; [by intros -> | by intros [= ->]].
Qed.

Lemma py_eq_str_false (s : string) (v : value) :
  py_eq_str s v = false <-> v <> VStr s.
Proof.
  rewrite <- py_eq_str_true. destruct (py_eq_str s v); split; congruence.
Qed.

Lemma py_eq_strs_true (l : list string) (items : list value) :
  py_eq_strs l items = true <-> items = VStr <$> l.
Proof.
  revert items. induction l as [|s l IH]; intros [|v items]; simpl;
    try (split; [discriminate | intros [=]]); [done|].
  rewrite andb_true_iff, py_eq_str_true, IH.
  split; [by intros [-> ->] | by intros [= -> ->]].
Qed.

Lemma py_eq_str_list_true (l : list string) (v : value) :
  py_eq_str_list l v = true <-> v = VList (VStr <$> l).
Proof.
  destruct v; simpl; try (split; [discriminate | intros [=]]).
  rewrite py_eq_strs_true. split; [by intros -> | by intros [= ->]].
Qed.

Lemma one_char_altered_neq (m m' : string) : one_char_altered m m' -> m <> m'.
Proof. induction 1; intros [=]; contradiction. Qed.

Lemma one_char_altered_length (m m' : string) :
  one_char_altered m m' -> String.length m = String.length m'.
Proof. induction 1; simpl; congruence. Qed.

(** Replacing the last character, as the test does, is such an alteration
    whenever the string ends in another character. *)
Lemma altered_last_char (m : string) (c : ascii) :
  last_char m = Some c -> c <> "x"%char -> one_char_altered m (Tests.altered m).
Proof.
  unfold Tests.altered.
  induction m as [|a m IH]; [discriminate|].
  destruct m as [|b m].
  - intros [= ->] Hc. simpl. by constructor.
  - intros Hl Hc. change (one_char_altered (String a (String b m))
      (String a (Tests.drop_last (String b m) +:+ "x"))).
    constructor. by apply IH.
Qed.

(** ** The run controller *)

Section Core.
Context `{HashUtils}.

Lemma mapM_fingerprints (l : list BoRStep.t) (fps : list string) :
  mapM BoRStep.fingerprint l = Some fps <-> BoRStep.fingerprint <$> l = Some <$> fps.
Proof.
  rewrite mapM_Some. split.
  - induction 1 as [|s fp l fps Hs _ IH]; csimpl; [done | by rewrite Hs, IH].
  - revert fps. induction l as [|s l IH]; intros [|fp fps] [=]; constructor; auto.
Qed.


Lemma finalize_nonempty (r : BoRRun.t) (fps : list string) :
  BoRRun.steps r <> [] ->
  BoRRun.fingerprints r = Some fps ->
  BoRRun.finalize r =
    let p := mkProof fps (content_hash (VStr (join fps))) in
    Ok (p, BoRRun.make (BoRRun.initial_state r) (BoRRun.config r)
             (BoRRun.code_version r) (BoRRun.steps r)
             (BoRRun._final_state r) (Some p)).
Proof.
  unfold BoRRun.finalize. intros Hne ->. by destruct (BoRRun.steps r).
Qed.

Lemma finalize_Ok (r r' : BoRRun.t) (p : BoRProof) :
  BoRRun.finalize r = Ok (p, r') ->
  BoRRun.steps r <> [] /\
  BoRRun.fingerprints r = Some (stage_hashes p) /\
  master p = content_hash (VStr (join (stage_hashes p))) /\
  r' = BoRRun.make (BoRRun.initial_state r) (BoRRun.config r)
         (BoRRun.code_version r) (BoRRun.steps r)
         (BoRRun._final_state r) (Some p).
Proof.
  unfold BoRRun.finalize.
  destruct (BoRRun.steps r) as [|s l] eqn:Hs; [discriminate|].
  destruct (BoRRun.fingerprints r) as [fps|]; [|discriminate].
  intros [= <- <-]. by repeat split.
Qed.

End Core.

Section Run.
Context `{HashUtils}.

Lemma add_step_Ok (r r' : BoRRun.t) (fn : pyobject) :
  BoRRun.add_step r fn = Ok r' ->
  exists name body out,
    fn = PyFunction name body /\
    body (current_state r) (BoRRun.config r) (BoRRun.code_version r) = Ok out /\
    r' = BoRRun.make (BoRRun.initial_state r) (BoRRun.config r)
           (BoRRun.code_version r)
           (BoRRun.steps r ++
              [snd (BoRStep.compute_fingerprint
                      (BoRStep.make name (current_state r) (BoRRun.config r)
                         (BoRRun.code_version r) None))])
           out (BoRRun.proof r).
Proof.
  unfold BoRRun.add_step, current_state. destruct fn as [name body|v]; [|discriminate].
  destruct (body _ _ _) as [out|e] eqn:Hb; [|discriminate].
  intros [= <-]. by exists name, body, out.
Qed.


Lemma recorded_compute_fingerprint (s : BoRStep.t) :
  recorded (snd (BoRStep.compute_fingerprint s)).
Proof. reflexivity. Qed.

Lemma verify_Ok (r r' : BoRRun.t) (b : bool) :
  BoRRun.verify r = Ok (b, r') -> exists p, BoRRun.finalize r = Ok (p, r').
Proof.
  unfold BoRRun.verify. destruct (BoRRun.proof r) as [p0|]; [|discriminate].
  destruct (BoRRun.finalize r) as [[p r1]|e]; simpl; [|discriminate].
  destruct (BoRRun.proof r1) as [p1|]; [|discriminate].
  destruct (negb _); [discriminate|]. intros [= <- <-]. by exists p.
Qed.

Lemma step_inv (r r' : BoRRun.t) :
  BoRRun.step r r' -> run_inv r -> run_inv r'.
Proof.
  intros Hstep [Hrec Hproof].
  assert (Hfin : forall q, BoRRun.finalize r = Ok (q, r') -> run_inv r').
  { intros q (Hne & _ & _ & ->)%finalize_Ok. by split. }
  destruct Hstep as [r fn r' Hadd | r p r' Hf | r b r' Hv].
  - apply add_step_Ok in Hadd as (name & body & out & -> & _ & ->).
    split; simpl.
    + apply Forall_app. split; [done|]. constructor; [|done].
      apply recorded_compute_fingerprint.
    + intros _. by destruct (BoRRun.steps r).
  - by eapply Hfin.
  - apply verify_Ok in Hv as [p Hp]. by eapply Hfin.
Qed.

Lemma reachable_inv (r : BoRRun.t) : BoRRun.reachable r -> run_inv r.
Proof.
  induction 1 as [S0 C V | r r' _ IH Hstep].
  - split; simpl; [constructor | by intros [? [=]]].
  - by eapply step_inv.
Qed.

Lemma reachable_add_steps (fns : list pyobject) (r r' : BoRRun.t) :
  BoRRun.reachable r ->
  for_each BoRRun.add_step fns r = Ok r' -> BoRRun.reachable r'.
Proof.
  revert r. induction fns as [|fn fns IH]; intros r Hr; simpl.
  - by intros [= <-].
  - destruct (BoRRun.add_step r fn) as [r1|e] eqn:Hadd; simpl; [|discriminate].
    apply IH. eapply BoRRun.reachable_step; [done|]. by econstructor.
Qed.

Lemma recorded_fingerprints (l : list BoRStep.t) :
  Forall recorded l ->
  mapM BoRStep.fingerprint l =
    Some ((fun s => content_hash (BoRStep.payload s)) <$> l).
Proof.
  intros Hl. apply mapM_fingerprints.
  induction Hl as [|s l Hs _ IH]; csimpl; [done|]. by rewrite Hs, IH.
Qed.

(** A run that has steps and came about through the methods finalizes. *)
Lemma finalize_returns (r : BoRRun.t) :
  run_inv r -> BoRRun.steps r <> [] ->
  exists p r', BoRRun.finalize r = Ok (p, r').
Proof.
  intros [Hrec _] Hne. eexists _, _.
  apply finalize_nonempty; [done|]. by apply recorded_fingerprints.
Qed.

End Run.

Section RunProperties.
Context `{HashUtils}.

(** C7. A run without recorded steps cannot be finalized: [finalize()]
    raises [DeterminismError]. *)
Theorem finalize_rejects_empty_run (r : BoRRun.t) :
  BoRRun.steps r = [] ->
  BoRRun.finalize r = Raise (DeterminismError NoStepsAdded).
Proof.
  intros Hsteps. unfold BoRRun.finalize.
  destruct (BoRRun.steps r) as [|s l]; [reflexivity | discriminate Hsteps].
Qed.

(** C5. On a run with at least one recorded step, [finalize()] returns a
    proof, a second call without further steps returns the same proof
    (same [stage_hashes], same [master]) and leaves the run as the first call
    left it, and any run with the same step fingerprints gets that proof:
    the proof is a function of the recorded fingerprints alone. *)
Theorem finalize_idempotent (r : BoRRun.t) :
  BoRRun.reachable r -> BoRRun.steps r <> [] ->
  exists p r',
    BoRRun.finalize r = Ok (p, r') /\
    BoRRun.finalize r' = Ok (p, r') /\
    forall r2,
      BoRStep.fingerprint <$> BoRRun.steps r2 = BoRStep.fingerprint <$> BoRRun.steps r ->
      exists r2', BoRRun.finalize r2 = Ok (p, r2').
Proof.
  intros Hreach Hne.
  destruct (finalize_returns r (reachable_inv r Hreach) Hne) as (p & r' & Hfin).
  exists p, r'. split; [done|].
  pose proof (finalize_Ok _ _ _ Hfin) as (_ & Hfps & Hm & Hr').
  destruct p as [fps m]; simpl in *; subst m.
  split.
  - subst r'. by rewrite (finalize_nonempty _ fps).
  - intros r2 Heq. eexists. rewrite (finalize_nonempty r2 fps); [done| |].
    + intros Hnil. rewrite Hnil in Heq. by destruct (BoRRun.steps r).
    + unfold BoRRun.fingerprints in *.
      apply mapM_fingerprints. rewrite Heq. by apply mapM_fingerprints.
Qed.



(** [callable(fn)] is what decides the first case. *)
Lemma add_step_not_callable (r : BoRRun.t) (fn : pyobject) :
  callable fn = false <->
  BoRRun.add_step r fn = Raise (DeterminismError StepNotCallable).
Proof.
  destruct fn as [name body|v]; simpl; [|done].
  split; [discriminate|]. by destruct (body _ _ _).
Qed.


(** C3. On a run that has been finalized, [verify()] returns [True]: it
    calls [finalize()], which stores the proof it returns, so the master is
    compared with itself. The [HashMismatchError] of [verify()] is raised on
    no run at all, and a run without proof gets [DeterminismError]. *)
Theorem verify_of_finalized_run (r : BoRRun.t) :
  BoRRun.reachable r ->
  match BoRRun.proof r with
  | Some _ =>
      exists p r', BoRRun.finalize r = Ok (p, r') /\
                   BoRRun.proof r' = Some p /\
                   BoRRun.verify r = Ok (true, r')
  | None => BoRRun.verify r = Raise (DeterminismError NotFinalized)
  end /\
  forall (r0 : BoRRun.t) (m : mismatch_msg),
    BoRRun.verify r0 <> Raise (HashMismatchError m).
Proof.
  intros Hreach. split.
  - pose proof (reachable_inv r Hreach) as Hinv.
    unfold BoRRun.verify.
    destruct (BoRRun.proof r) as [p0|] eqn:Hp; [|done].
    destruct (finalize_returns r Hinv) as (p & r' & Hfin).
    { apply Hinv. by rewrite Hp. }
    exists p, r'. rewrite Hfin; simpl.
    apply finalize_Ok in Hfin as (_ & _ & _ & ->); simpl.
    by rewrite String.eqb_refl.
  - intros r0 m. unfold BoRRun.verify.
    destruct (BoRRun.proof r0) as [p0|]; [|done].
    destruct (BoRRun.finalize r0) as [[p r']|e] eqn:Hfin; simpl.
    + apply finalize_Ok in Hfin as (_ & _ & _ & ->); simpl.
      by rewrite String.eqb_refl.
    + unfold BoRRun.finalize in Hfin.
      destruct (BoRRun.steps r0); [by injection Hfin as <-|].
      destruct (BoRRun.fingerprints r0); [done | by injection Hfin as <-].
Qed.

End RunProperties.

(** ** Replay verification *)

Section ReplayProperties.
Context `{HashUtils}.

(** [verify_proof] on a proof file that holds a JSON object, once the
    replay has produced its proof: the comparison of the masters decides. *)
Lemma verify_proof_replayed (w : World) (path : string) (S0 C : value)
    (V : string) (stages : list pyobject) (items : list (string * value))
    (run run' : BoRRun.t) (p : BoRProof) :
  files w !! path = Some (Some (VDict items)) ->
  for_each BoRRun.add_step stages (BoRRun.init S0 C V) = Ok run ->
  BoRRun.finalize run = Ok (p, run') ->
  verify_proof w path S0 C V stages =
    let stored_master := default VNone (dict_lookup "master" items) in
    let stored_stage_hashes := default (VList []) (dict_lookup "stage_hashes" items) in
    if negb (py_eq_str (master p) stored_master)
    then Raise (HashMismatchError (VerificationFailed stored_master (master p)))
    else Ok (true,
             (if truthy stored_stage_hashes
                 && negb (py_eq_str_list (stage_hashes p) stored_stage_hashes)
              then [StageHashesDiffer] else []) ++ [VerificationSuccessful]).
Proof.
  intros Hfile Hrun Hfin. unfold verify_proof. rewrite Hfile. simpl.
  destruct (dict_lookup "master" items), (dict_lookup "stage_hashes" items);
    simpl; rewrite Hrun; simpl; rewrite Hfin; reflexivity.
Qed.

(** [verify_proof] never returns [False]. *)
Lemma verify_proof_not_False (w : World) (path : string) (S0 C : value)
    (V : string) (stages : list pyobject) (out : list console_line) :
  verify_proof w path S0 C V stages <> Ok (false, out).
Proof.
  unfold verify_proof.
  destruct (files w !! path) as [[v|]|]; simpl; try discriminate.
  destruct (dict_get v "master" VNone); simpl; [|discriminate].
  destruct (dict_get v "stage_hashes" (VList [])); simpl; [|discriminate].
  destruct (for_each _ _ _); simpl; [|discriminate].
  destruct (BoRRun.finalize _) as [[? ?]|]; simpl; [|discriminate].
  destruct (negb _); discriminate.
Qed.

(** C1, as amended. When the replay finalizes, [verify_proof] raises
    [HashMismatchError] if the stored master is not the recomputed one and
    returns [True] if it is, whatever the stored stage hashes are; stored
    stage hashes that are non-empty and differ from the recomputed ones are
    reported by the warning line, printed before the line of success, and
    an absent or empty [stage_hashes] is not compared. It never returns
    [False]. *)
Theorem verify_proof_master_decides (w : World) (path : string) (S0 C : value)
    (V : string) (stages : list pyobject) (items : list (string * value))
    (run run' : BoRRun.t) (p : BoRProof) :
  files w !! path = Some (Some (VDict items)) ->
  for_each BoRRun.add_step stages (BoRRun.init S0 C V) = Ok run ->
  BoRRun.finalize run = Ok (p, run') ->
  let stored_master := default VNone (dict_lookup "master" items) in
  let stored_stage_hashes := default (VList []) (dict_lookup "stage_hashes" items) in
  (stored_master <> VStr (master p) ->
   verify_proof w path S0 C V stages =
     Raise (HashMismatchError (VerificationFailed stored_master (master p)))) /\
  (stored_master = VStr (master p) ->
   (truthy stored_stage_hashes = true ->
    stored_stage_hashes <> VList (VStr <$> stage_hashes p) ->
    verify_proof w path S0 C V stages =
      Ok (true, [StageHashesDiffer; VerificationSuccessful])) /\
   (truthy stored_stage_hashes = false \/
    stored_stage_hashes = VList (VStr <$> stage_hashes p) ->
    verify_proof w path S0 C V stages = Ok (true, [VerificationSuccessful]))) /\
  (forall w0 path0 S1 C1 V1 stages1 out,
     verify_proof w0 path0 S1 C1 V1 stages1 <> Ok (false, out)).
Proof.
  intros Hfile Hrun Hfin sm sh.
  pose proof (verify_proof_replayed _ _ _ _ _ _ _ _ _ _ Hfile Hrun Hfin) as Hv.
  cbv zeta in Hv. fold sm sh in Hv.
  split; [|split].
  - intros Hne. rewrite Hv.
    by apply py_eq_str_false in Hne as ->.
  - intros Heq. rewrite Hv.
    apply py_eq_str_true in Heq as ->. simpl. split.
    + intros -> Hdiff. simpl.
      destruct (py_eq_str_list (stage_hashes p) sh) eqn:Hl; [|done].
      by apply py_eq_str_list_true in Hl.
    + intros [-> | Hsame]; [done|].
      apply py_eq_str_list_true in Hsame as ->.
      by rewrite andb_false_r.
  - intros. apply verify_proof_not_False.
Qed.

(** C4. A run is recorded, one character of the stored master is replaced
    by another, and the same initial state, configuration, version and step
    functions are replayed against the file: [verify_proof] raises
    [HashMismatchError]. *)
Theorem altered_master_is_detected (w : World) (path : string) (S0 C : value)
    (V : string) (stages : list pyobject) (items : list (string * value))
    (run run' : BoRRun.t) (p : BoRProof) (stored : string) :
  for_each BoRRun.add_step stages (BoRRun.init S0 C V) = Ok run ->
  BoRRun.finalize run = Ok (p, run') ->
  one_char_altered (master p) stored ->
  files w !! path = Some (Some (VDict items)) ->
  dict_lookup "master" items = Some (VStr stored) ->
  verify_proof w path S0 C V stages =
    Raise (HashMismatchError (VerificationFailed (VStr stored) (master p))).
Proof.
  intros Hrun Hfin Halt Hfile Hm.
  rewrite (verify_proof_replayed _ _ _ _ _ _ _ _ _ _ Hfile Hrun Hfin).
  rewrite Hm. simpl.
  destruct (String.eqb_spec (master p) stored) as [Heq|Hne]; [|done].
  by apply one_char_altered_neq in Halt.
Qed.

(** C8. The run of the test-suite: from 3, [add] with offset 2 gives 5 and
    [square] gives 25; the two steps are recorded with inputs 3 and 5; the
    proof has their two fingerprints, and its master is the hash of the
    first followed by the second; replaying the same run against the stored
    proof recomputes that master and succeeds. *)
Theorem scenario_add_then_square :
  let fp1 := content_hash (VDict [ ("fn", VStr "add"); ("input", VInt 3);
                                   ("config", Tests.C); ("version", VStr "v1.0") ]) in
  let fp2 := content_hash (VDict [ ("fn", VStr "square"); ("input", VInt 5);
                                   ("config", Tests.C); ("version", VStr "v1.0") ]) in
  exists (run run' : BoRRun.t) (p : BoRProof),
    Tests.add_body (VInt 3) Tests.C Tests.V = Ok (VInt 5) /\
    Tests.square_body (VInt 5) Tests.C Tests.V = Ok (VInt 25) /\
    for_each BoRRun.add_step Tests.stages
      (BoRRun.init Tests.S0 Tests.C Tests.V) = Ok run /\
    BoRStep.input_state <$> BoRRun.steps run = [VInt 3; VInt 5] /\
    BoRStep.fn_name <$> BoRRun.steps run = ["add"; "square"] /\
    BoRStep.fingerprint <$> BoRRun.steps run = [Some fp1; Some fp2] /\
    BoRRun._final_state run = VInt 25 /\
    BoRRun.finalize run = Ok (p, run') /\
    stage_hashes p = [fp1; fp2] /\
    master p = content_hash (VStr (fp1 +:+ fp2)) /\
    forall (w : World) (path : string),
      files w !! path = Some (Tests.proof_file (stage_hashes p) (master p)) ->
      verify_proof w path Tests.S0 Tests.C Tests.V Tests.stages
        = Ok (true, [VerificationSuccessful]).
Proof.
  intros fp1 fp2. eexists _, _, _.
  do 7 (split; [reflexivity|]).
  split; [reflexivity|]. split; [reflexivity|].
  split.
  - simpl. by rewrite append_empty_r.
  - intros w path Hfile. unfold verify_proof. rewrite Hfile. simpl.
    rewrite !String.eqb_refl. reflexivity.
Qed.

End ReplayProperties.

(** ** The proof store *)

(** Scanning rows none of which carries the label keeps the candidate. *)
Lemma select_latest_no_match (label : string) (rows : list row) :
  existsb (fun r => String.eqb (row_label r) label) rows = false ->
  ProofStore.select_latest label rows = None.
Proof.
  unfold ProofStore.select_latest. generalize (@None row) as best.
  induction rows as [|r rows IH]; intros best; simpl; [done|].
  intros [Hr Hrows]%orb_false_iff. rewrite Hr. by apply IH.
Qed.


(** [__init__] leaves the store ready, and [save] keeps it so. *)
Lemma init_ready (w : World) (root : string) (use_sqlite : bool) :
  ProofStore.ready (ProofStore.init w root use_sqlite).1
                   (ProofStore.init w root use_sqlite).2.
Proof.
  unfold ProofStore.ready, ProofStore.init, ProofStore._init_db.
  destruct use_sqlite; simpl; [|done]. intros _.
  destruct (tables w !! _) eqn:Ht; simpl; [by rewrite Ht|].
  by rewrite lookup_insert_eq.
Qed.


(** A fresh store holds no label. *)
Lemma init_stores_nothing (root label : string) (use_sqlite : bool) :
  let '(w, self) := ProofStore.init (mkWorld ∅ ∅) root use_sqlite in
  ProofStore.stored w self label = false.
Proof.
  unfold ProofStore.init, ProofStore._init_db, ProofStore.stored.
  destruct use_sqlite; simpl.
  - rewrite lookup_empty. simpl. by rewrite lookup_insert_eq.
  - rewrite lookup_empty. apply bool_decide_eq_false_2. by intros [? [=]].
Qed.

(** What is saved under a label is then stored under it. *)
Lemma save_stored (w w' : World) (self : ProofStore.t) (label path : string)
    (p : LoadedProof) :
  ProofStore.save w self label p = Ok (w', path) ->
  ProofStore.stored w' self label = true.
Proof.
  unfold ProofStore.save, ProofStore.stored.
  destruct (ProofStore.use_sqlite self).
  - destruct (tables w !! _) as [rows|]; [|discriminate].
    intros [= <- <-]. simpl. rewrite lookup_insert_eq.
    rewrite existsb_app. simpl. by rewrite String.eqb_refl, orb_true_r.
  - intros [= <- <-]. simpl. rewrite lookup_insert_eq.
    by apply bool_decide_eq_true_2.
Qed.

(** C10. Loading a label that is not in the store raises the not-found
    error of the store, [FileNotFoundError], in JSON mode and in SQLite mode
    alike. *)
Theorem load_absent_label (w : World) (self : ProofStore.t) (label : string) :
  ProofStore.ready w self ->
  ProofStore.stored w self label = false ->
  ProofStore.load w self label = Raise (FileNotFoundError label).
Proof.
  unfold ProofStore.ready, ProofStore.stored, ProofStore.load.
  destruct (ProofStore.use_sqlite self).
  - intros Hready. destruct (Hready eq_refl) as [rows ->].
    intros Hno. by rewrite select_latest_no_match.
  - intros _ Hno%bool_decide_eq_false.
    destruct (files w !! _) as [text|]; [|done].
    exfalso. by apply Hno.
Qed.




(** ** The definitions at work *)

Example demo_recorded_proof :
  Demo.recorded_proof = mkProof ["5060"; "a663"] "47f4".
Proof. reflexivity. Qed.

Example test_verify_recomputes_success :
  verify_proof (H := Demo.hash_utils) (Demo.world_with Demo.good_file)
    "proof.json" Tests.S0 Tests.C Tests.V Tests.stages
  = Ok (true, [VerificationSuccessful]).
Proof. reflexivity. Qed.

Example test_verify_detects_mismatch :
  verify_proof (H := Demo.hash_utils) (Demo.world_with Demo.bad_file)
    "proof.json" Tests.S0 Tests.C Tests.V Tests.stages
  = Raise (HashMismatchError (VerificationFailed (VStr "47fx") "47f4")).
Proof. reflexivity. Qed.

Example verify_proof_warns_on_tampered_stage_hashes :
  verify_proof (H := Demo.hash_utils) (Demo.world_with Demo.tampered_file)
    "proof.json" Tests.S0 Tests.C Tests.V Tests.stages
  = Ok (true, [StageHashesDiffer; VerificationSuccessful]).
Proof. reflexivity. Qed.

Example verify_proof_missing_file :
  verify_proof (H := Demo.hash_utils) (Demo.world_with Demo.good_file)
    "other.json" Tests.S0 Tests.C Tests.V Tests.stages
  = Raise (FileNotFoundError "other.json").
Proof. reflexivity. Qed.

(** A step that raises ends the replay in [DeterminismError]. *)
Example add_step_wraps_failure :
  BoRRun.add_step (H := Demo.hash_utils)
    (BoRRun.init (VStr "three") Tests.C Tests.V) Tests.square
  = Raise (DeterminismError (StepFailed "square" TypeError)).
Proof. reflexivity. Qed.

(** Without fingerprints of one length the concatenation is ambiguous:
    the pieces "a", "aa" and "aa", "a" join to the same string. *)
Example join_ambiguous_on_mixed_lengths :
  ["a"; "aa"] <> ["aa"; "a"] /\ join ["a"; "aa"] = join ["aa"; "a"].
Proof. split; [discriminate | reflexivity]. Qed.

Example store_roundtrip_sqlite :
  ProofStore.load (Demo.saved_world true) (Demo.store true) "run-1"
  = Ok (proof_values Demo.recorded_proof).
Proof. reflexivity. Qed.

Example store_roundtrip_json :
  ProofStore.load (Demo.saved_world false) (Demo.store false) "run-1"
  = Ok (proof_values Demo.recorded_proof).
Proof. reflexivity. Qed.

(** ** Order sensitivity and the size of a digest *)











Section Counting.
Context `{HashUtils}.



End Counting.

Section Replays.
Context `{HashUtils}.

(** The stage hashes of a run built through the methods are fingerprints. *)
Lemma reachable_stage_hashes (r r' : BoRRun.t) (p : BoRProof) :
  BoRRun.reachable r -> BoRRun.finalize r = Ok (p, r') ->
  Forall is_fingerprint (stage_hashes p).
Proof.
  intros [Hrec _]%reachable_inv (_ & Hfps & _)%finalize_Ok.
  unfold BoRRun.fingerprints in Hfps.
  rewrite (recorded_fingerprints _ Hrec) in Hfps. injection Hfps as <-.
  apply Forall_fmap, Forall_forall. intros s _. by eexists.
Qed.


End Replays.


(** The premise is met by any hash worth the name, the four-digit one
    included. *)
Example demo_separates_names : separates_names (H := Demo.hash_utils).
Proof.
  exists "keep", "hold", Tests.S0, Tests.C, Tests.V.
  intros Heq. vm_compute in Heq. discriminate Heq.
Qed.

(** Under the four-digit hash the counting bites early. A run of six
    state-keeping steps is recorded; replaying the same six steps in
    another order recomputes other stage hashes and yet the same master,
    and [verify_proof] accepts the replay with the warning. *)
Example demo_reordered_replay_accepted :
  Demo.first_order_file
    = Tests.proof_file ["2f3f"; "1db9"; "1db9"; "1db9"; "1db9"; "2f3f"] "198d" /\
  verify_proof (H := Demo.hash_utils) (Demo.world_with Demo.first_order_file)
    "proof.json" Tests.S0 Tests.C Tests.V Demo.second_order
  = Ok (true, [StageHashesDiffer; VerificationSuccessful]).
Proof. split; reflexivity. Qed.

(** ** The theorems at concrete inputs *)

Lemma demo_recorded_run_reachable :
  BoRRun.reachable (H := Demo.hash_utils) Demo.recorded_run.
Proof.
  apply (reachable_add_steps Tests.stages (BoRRun.init Tests.S0 Tests.C Tests.V));
    [constructor | reflexivity].
Qed.

Lemma demo_finalized_run_reachable :
  BoRRun.reachable (H := Demo.hash_utils) Demo.finalized_run.
Proof.
  eapply BoRRun.reachable_step; [apply demo_recorded_run_reachable|].
  by eapply (BoRRun.step_finalize _ Demo.recorded_proof).
Qed.

Lemma finalize_rejects_empty_run_witness :
  BoRRun.steps (BoRRun.init Tests.S0 Tests.C Tests.V) = [] /\
  BoRRun.finalize (H := Demo.hash_utils) (BoRRun.init Tests.S0 Tests.C Tests.V)
    = Raise (DeterminismError NoStepsAdded).
Proof.
  split; [reflexivity|].
  apply (@finalize_rejects_empty_run Demo.hash_utils). reflexivity.
Defined.

Lemma finalize_idempotent_witness :
  BoRRun.reachable (H := Demo.hash_utils) Demo.recorded_run /\
  BoRRun.steps Demo.recorded_run <> [] /\
  exists p r',
    BoRRun.finalize (H := Demo.hash_utils) Demo.recorded_run = Ok (p, r') /\
    BoRRun.finalize (H := Demo.hash_utils) r' = Ok (p, r') /\
    forall r2,
      BoRStep.fingerprint <$> BoRRun.steps r2
        = BoRStep.fingerprint <$> BoRRun.steps Demo.recorded_run ->
      exists r2', BoRRun.finalize (H := Demo.hash_utils) r2 = Ok (p, r2').
Proof.
  split; [apply demo_recorded_run_reachable|].
  split; [discriminate|].
  apply (@finalize_idempotent Demo.hash_utils Demo.recorded_run);
    [apply demo_recorded_run_reachable | discriminate].
Defined.



Lemma verify_of_finalized_run_witness :
  BoRRun.reachable (H := Demo.hash_utils) Demo.finalized_run /\
  BoRRun.proof Demo.finalized_run = Some Demo.recorded_proof /\
  exists p r',
    BoRRun.finalize (H := Demo.hash_utils) Demo.finalized_run = Ok (p, r') /\
    BoRRun.proof r' = Some p /\
    BoRRun.verify (H := Demo.hash_utils) Demo.finalized_run = Ok (true, r').
Proof.
  split; [apply demo_finalized_run_reachable|].
  split; [reflexivity|].
  exact (proj1 (@verify_of_finalized_run Demo.hash_utils Demo.finalized_run
                  demo_finalized_run_reachable)).
Defined.

Lemma verify_proof_master_decides_witness :
  verify_proof (H := Demo.hash_utils) (Demo.world_with Demo.bad_file)
    "proof.json" Tests.S0 Tests.C Tests.V Tests.stages
  = Raise (HashMismatchError (VerificationFailed (VStr "47fx") "47f4")) /\
  verify_proof (H := Demo.hash_utils) (Demo.world_with Demo.tampered_file)
    "proof.json" Tests.S0 Tests.C Tests.V Tests.stages
  = Ok (true, [StageHashesDiffer; VerificationSuccessful]).
Proof.
  split.
  - refine (proj1 (@verify_proof_master_decides Demo.hash_utils
                     (Demo.world_with Demo.bad_file) "proof.json"
                     Tests.S0 Tests.C Tests.V Tests.stages _
                     Demo.recorded_run Demo.finalized_run Demo.recorded_proof
                     eq_refl eq_refl eq_refl) _).
    intros Heq. vm_compute in Heq. discriminate Heq.
  - refine (proj1 (proj1 (proj2 (@verify_proof_master_decides Demo.hash_utils
                     (Demo.world_with Demo.tampered_file) "proof.json"
                     Tests.S0 Tests.C Tests.V Tests.stages _
                     Demo.recorded_run Demo.finalized_run Demo.recorded_proof
                     eq_refl eq_refl eq_refl)) eq_refl) eq_refl _).
    intros Heq. vm_compute in Heq. discriminate Heq.
Defined.

(** The stored master is the recomputed one, the stored stage hashes are
    not the recomputed ones, and [verify_proof] prints the line of success
    alone: an emptied [stage_hashes] is a mismatch that raises no warning. *)
Lemma verify_proof_silent_on_emptied_stage_hashes :
  files (Demo.world_with Demo.emptied_file) !! "proof.json"
    = Some (Some (VDict [ ("stage_hashes", VList []);
                          ("master", VStr (master Demo.recorded_proof)) ])) /\
  VList [] <> VList (VStr <$> stage_hashes Demo.recorded_proof) /\
  verify_proof (H := Demo.hash_utils) (Demo.world_with Demo.emptied_file)
    "proof.json" Tests.S0 Tests.C Tests.V Tests.stages
  = Ok (true, [VerificationSuccessful]) /\
  StageHashesDiffer ∉ [VerificationSuccessful].
Proof.
  split; [reflexivity|]. split; [discriminate|]. split; [reflexivity|].
  by intros [=]%list_elem_of_singleton.
Qed.

Lemma altered_master_is_detected_witness :
  one_char_altered (master Demo.recorded_proof)
                   (Tests.altered (master Demo.recorded_proof)) /\
  verify_proof (H := Demo.hash_utils) (Demo.world_with Demo.bad_file)
    "proof.json" Tests.S0 Tests.C Tests.V Tests.stages
  = Raise (HashMismatchError
             (VerificationFailed
                (VStr (Tests.altered (master Demo.recorded_proof)))
                (master Demo.recorded_proof))).
Proof.
  assert (Halt : one_char_altered (master Demo.recorded_proof)
                   (Tests.altered (master Demo.recorded_proof))).
  { apply (altered_last_char _ "4"); [reflexivity | discriminate]. }
  split; [exact Halt|].
  exact (@altered_master_is_detected Demo.hash_utils
           (Demo.world_with Demo.bad_file) "proof.json"
           Tests.S0 Tests.C Tests.V Tests.stages _
           Demo.recorded_run Demo.finalized_run Demo.recorded_proof _
           eq_refl eq_refl Halt eq_refl eq_refl).
Defined.

Lemma load_absent_label_witness :
  (ProofStore.stored (Demo.saved_world true) (Demo.store true) "run-2" = false /\
   ProofStore.load (Demo.saved_world true) (Demo.store true) "run-2"
     = Raise (FileNotFoundError "run-2")) /\
  (ProofStore.stored (Demo.saved_world false) (Demo.store false) "run-2" = false /\
   ProofStore.load (Demo.saved_world false) (Demo.store false) "run-2"
     = Raise (FileNotFoundError "run-2")).
Proof.
  split; (split; [reflexivity|]).
  - apply (load_absent_label (Demo.saved_world true) (Demo.store true) "run-2");
      [|reflexivity].
    intros _. eexists. reflexivity.
  - apply (load_absent_label (Demo.saved_world false) (Demo.store false) "run-2");
      [|reflexivity].
    intros [=].
Defined.

(** * More of the code *)

(** ** The loop of [add_step] *)

Section Replay.
Context `{HashUtils}.





End Replay.

(** ** What the methods keep *)

Section Transitions.
Context `{HashUtils}.



End Transitions.

(** ** Runs built through the methods *)

Section Reachable.
Context `{HashUtils}.

Lemma fingerprints_snoc (l : list BoRStep.t) (fps : list string) (s : BoRStep.t) :
  mapM BoRStep.fingerprint l = Some fps ->
  recorded s ->
  mapM BoRStep.fingerprint (l ++ [s])
    = Some (fps ++ [content_hash (BoRStep.payload s)]).
Proof.
  intros Hl Hs. apply mapM_fingerprints. apply mapM_fingerprints in Hl.
  rewrite !fmap_app, Hl. simpl. by rewrite Hs.
Qed.


(** The proof a run caches is the proof of its first steps: of all of them
    right after [finalize()] or [verify()], of those that were there at the
    last such call once [add_step] has added more. *)
Lemma cached_proof_covers_a_prefix (r : BoRRun.t) :
  BoRRun.reachable r ->
  match BoRRun.proof r with
  | None => True
  | Some p =>
      stage_hashes p <> [] /\
      master p = content_hash (VStr (join (stage_hashes p))) /\
      exists rest, BoRRun.fingerprints r = Some (stage_hashes p ++ rest)
  end.
Proof.
  assert (Hfin : forall r r' q, BoRRun.finalize r = Ok (q, r') ->
            match BoRRun.proof r' with
            | None => True
            | Some p =>
                stage_hashes p <> [] /\
                master p = content_hash (VStr (join (stage_hashes p))) /\
                exists rest, BoRRun.fingerprints r' = Some (stage_hashes p ++ rest)
            end).
  { intros r0 r0' q (Hne & Hfps & Hm & ->)%finalize_Ok. simpl.
    split; [|split; [done|]].
    - intros Hnil. rewrite Hnil in Hfps. unfold BoRRun.fingerprints in Hfps.
      apply mapM_fingerprints in Hfps. by destruct (BoRRun.steps r0).
    - exists []. by rewrite app_nil_r. }
  induction 1 as [S0 C V | r r' _ IH Hstep]; [done|].
  destruct Hstep as [r fn r' Hadd | r p r' Hf | r b r' Hv].
  - apply add_step_Ok in Hadd as (name & body & out & -> & _ & ->). simpl.
    destruct (BoRRun.proof r) as [p|]; [|done].
    destruct IH as (Hne & Hm & rest & Hrest). split; [done|]. split; [done|].
    eexists. unfold BoRRun.fingerprints in *. simpl.
    rewrite (fingerprints_snoc _ _ _ Hrest); [|done].
    by rewrite <- app_assoc.
  - by eapply Hfin.
  - apply verify_Ok in Hv as [q Hq]. by eapply Hfin.
Qed.

(** X5. [summary()] on a run built through the methods: the number of steps is
    the number of fingerprints listed, every fingerprint is a string, and
    [HMASTER] is [None] until the first [finalize()] and afterwards the hash
    of the concatenation of the fingerprints that were there at the last
    [finalize()] or [verify()], a prefix of those listed. *)
Theorem summary_of_reachable_run (r : BoRRun.t) :
  BoRRun.reachable r ->
  exists fps,
    BoRRun.fingerprints r = Some fps /\
    summary r =
      VDict [ ("initial_state", BoRRun.initial_state r);
              ("num_steps", VInt (Z.of_nat (length fps)));
              ("fingerprints", VList (VStr <$> fps));
              ("HMASTER",
                 match BoRRun.proof r with
                 | None => VNone
                 | Some p =>
                     VStr (content_hash
                             (VStr (join (take (length (stage_hashes p)) fps))))
                 end) ].
Proof.
  intros Hreach.
  pose proof (reachable_inv r Hreach) as [Hrec _].
  pose proof (recorded_fingerprints _ Hrec) as Hfps.
  eexists. split; [exact Hfps|].
  assert (Hlist :
    (fun s => match BoRStep.fingerprint s with
              | Some fp => VStr fp
              | None => VNone
              end) <$> BoRRun.steps r
    = VStr <$> ((fun s => content_hash (BoRStep.payload s)) <$> BoRRun.steps r)).
  { rewrite <- list_fmap_compose. apply Forall_fmap_ext_1.
    eapply Forall_impl; [exact Hrec|]. intros s Hs. simpl. by rewrite Hs. }
  assert (Hmaster :
    match BoRRun.proof r with
    | Some p => VStr (master p)
    | None => VNone
    end
    = match BoRRun.proof r with
      | None => VNone
      | Some p =>
          VStr (content_hash
                  (VStr (join (take (length (stage_hashes p))
                                 ((fun s => content_hash (BoRStep.payload s))
                                    <$> BoRRun.steps r)))))
      end).
  { destruct (BoRRun.proof r) as [p|] eqn:Hp; [|done].
    pose proof (cached_proof_covers_a_prefix r Hreach) as Hpre.
    rewrite Hp in Hpre. destruct Hpre as (_ & Hm & rest & Hrest).
    unfold BoRRun.fingerprints in Hrest. rewrite Hfps in Hrest.
    injection Hrest as ->. by rewrite take_app_length, Hm. }
  unfold summary. by rewrite Hlist, Hmaster, length_fmap.
Qed.

End Reachable.

(** ** The cached proof *)

Section Cache.
Context `{HashUtils}.

(** X6. A call of [verify()] that returns, returns [True]; of the run it
    changes the cached proof only, which becomes the proof of the steps the
    run has now. *)
Theorem verify_refreshes_proof (r r' : BoRRun.t) (b : bool) :
  BoRRun.verify r = Ok (b, r') ->
  b = true /\
  exists fps,
    BoRRun.fingerprints r = Some fps /\ fps <> [] /\
    r' = BoRRun.make (BoRRun.initial_state r) (BoRRun.config r)
           (BoRRun.code_version r) (BoRRun.steps r) (BoRRun._final_state r)
           (Some (mkProof fps (content_hash (VStr (join fps))))).
Proof.
  unfold BoRRun.verify. destruct (BoRRun.proof r) as [p0|]; [|discriminate].
  destruct (BoRRun.finalize r) as [[p r1]|e] eqn:Hfin; cbn [bind]; [|discriminate].
  apply finalize_Ok in Hfin as (Hne & Hfps & Hm & ->). simpl.
  rewrite String.eqb_refl. simpl. intros [= <- <-]. split; [done|].
  exists (stage_hashes p). split; [done|]. split.
  - intros Hnil. rewrite Hnil in Hfps. unfold BoRRun.fingerprints in Hfps.
    apply mapM_fingerprints in Hfps. by destruct (BoRRun.steps r).
  - destruct p as [fps m]. simpl in *. by subst m.
Qed.

(** X7. [add_step] does not touch the cached proof: after [finalize()] and one
    more step the run still holds the proof of the earlier steps, and
    [summary()] reports its master next to one step more than it covers;
    the next [finalize()] returns a proof with one more stage hash. *)
Theorem add_step_leaves_proof_stale (r r1 r2 : BoRRun.t) (p : BoRProof)
    (fn : pyobject) :
  BoRRun.finalize r = Ok (p, r1) ->
  BoRRun.add_step r1 fn = Ok r2 ->
  BoRRun.proof r2 = Some p /\
  dict_item (summary r2) "HMASTER" = Ok (VStr (master p)) /\
  dict_item (summary r2) "num_steps"
    = Ok (VInt (Z.of_nat (S (length (stage_hashes p))))) /\
  exists (fp : string) (r3 : BoRRun.t),
    BoRRun.finalize r2
      = Ok (mkProof (stage_hashes p ++ [fp])
                    (content_hash (VStr (join (stage_hashes p ++ [fp])))), r3).
Proof.
  intros (Hne & Hfps & Hm & ->)%finalize_Ok
         (name & body & out & -> & _ & ->)%add_step_Ok.
  cbn [BoRRun.proof BoRRun.steps BoRRun.config BoRRun.code_version
       BoRRun.initial_state] in *.
  assert (Hlen : length (BoRRun.steps r) = length (stage_hashes p)).
  { unfold BoRRun.fingerprints in Hfps. apply mapM_fingerprints in Hfps.
    by rewrite <- (length_fmap BoRStep.fingerprint), Hfps, length_fmap. }
  split; [done|]. split; [done|]. split.
  - unfold summary. cbn [BoRRun.steps]. simpl.
    rewrite length_app, Hlen. simpl. do 3 f_equal. lia.
  - eexists _, _. apply finalize_nonempty.
    + cbn [BoRRun.steps]. by destruct (BoRRun.steps r).
    + unfold BoRRun.fingerprints in *. cbn [BoRRun.steps].
      by apply fingerprints_snoc.
Qed.

End Cache.

(** ** Replays against a file *)

Section ReplayFile.
Context `{HashUtils}.




(** [verify_proof] past the reading of a file that holds a JSON object. *)
Lemma verify_proof_on_object (w : World) (path : string) (S0 C : value)
    (V : string) (stages : list pyobject) (items : list (string * value)) :
  files w !! path = Some (Some (VDict items)) ->
  verify_proof w path S0 C V stages =
    let stored_master := default VNone (dict_lookup "master" items) in
    let stored_stage_hashes := default (VList []) (dict_lookup "stage_hashes" items) in
    let* run := for_each BoRRun.add_step stages (BoRRun.init S0 C V) in
    let* (new_proof, run) := BoRRun.finalize run in
    if negb (py_eq_str (master new_proof) stored_master)
    then Raise (HashMismatchError
                  (VerificationFailed stored_master (master new_proof)))
    else Ok (true,
             (if truthy stored_stage_hashes
                 && negb (py_eq_str_list (stage_hashes new_proof)
                            stored_stage_hashes)
              then [StageHashesDiffer] else []) ++ [VerificationSuccessful]).
Proof.
  intros Hfile. unfold verify_proof. rewrite Hfile.
  cbn [json_loads bind dict_get].
  by destruct (dict_lookup "master" items),
              (dict_lookup "stage_hashes" items).
Qed.

(** X8. [verify_proof] returns exactly when the file exists and holds a JSON
    object, the replay of the stages and its [finalize()] go through, and
    the object's [master] is the recomputed master as a string; it then
    returns [True], having printed the warning if the stored stage hashes
    are non-empty and not the recomputed ones, and the line of success. *)
Theorem verify_proof_returns_iff (w : World) (path : string) (S0 C : value)
    (V : string) (stages : list pyobject) (b : bool) (out : list console_line) :
  verify_proof w path S0 C V stages = Ok (b, out) <->
  exists (items : list (string * value)) (run run' : BoRRun.t) (p : BoRProof),
    files w !! path = Some (Some (VDict items)) /\
    for_each BoRRun.add_step stages (BoRRun.init S0 C V) = Ok run /\
    BoRRun.finalize run = Ok (p, run') /\
    dict_lookup "master" items = Some (VStr (master p)) /\
    b = true /\
    out = (if truthy (default (VList []) (dict_lookup "stage_hashes" items))
              && negb (py_eq_str_list (stage_hashes p)
                         (default (VList []) (dict_lookup "stage_hashes" items)))
           then [StageHashesDiffer] else []) ++ [VerificationSuccessful].
Proof.
  split.
  - destruct (files w !! path) as [[v|]|] eqn:Hfile.
    2,3: unfold verify_proof; rewrite Hfile; discriminate.
    destruct v as [| | | | |items].
    1-5: unfold verify_proof; rewrite Hfile; discriminate.
    rewrite (verify_proof_on_object _ _ _ _ _ _ items Hfile). cbv zeta.
    destruct (for_each _ _ _) as [run|e] eqn:Hrun; cbn [bind]; [|discriminate].
    destruct (BoRRun.finalize run) as [[p run']|e] eqn:Hfin; cbn [bind];
      [|discriminate].
    destruct (py_eq_str (master p) _) eqn:Heq; cbn [negb]; [|discriminate].
    intros [= <- <-]. exists items, run, run', p.
    do 3 (split; [done|]). split; [|done].
    apply py_eq_str_true in Heq.
    destruct (dict_lookup "master" items); [by simplify_eq/= | discriminate].
  - intros (items & run & run' & p & Hfile & Hrun & Hfin & Hm & -> & ->).
    rewrite (verify_proof_replayed _ _ _ _ _ _ _ _ _ _ Hfile Hrun Hfin).
    cbv zeta. rewrite Hm. cbn [default from_option id].
    assert (Heq : py_eq_str (master p) (VStr (master p)) = true)
      by by apply py_eq_str_true.
    by rewrite Heq.
Qed.


(** X10. A replay that fails is reported before any comparison: with a proof
    file that holds a JSON object, whatever it stores, [verify_proof] raises
    the exception of the replay, and with no stages at all it raises the
    [DeterminismError] of a run without steps. *)
Theorem verify_proof_replay_failure (w : World) (path : string) (S0 C : value)
    (V : string) (stages : list pyobject) (items : list (string * value)) :
  files w !! path = Some (Some (VDict items)) ->
  match for_each BoRRun.add_step stages (BoRRun.init S0 C V) with
  | Raise e => verify_proof w path S0 C V stages = Raise e
  | Ok _ =>
      stages = [] ->
      verify_proof w path S0 C V stages = Raise (DeterminismError NoStepsAdded)
  end.
Proof.
  intros Hfile. rewrite (verify_proof_on_object _ _ _ _ _ _ items Hfile).
  cbv zeta.
  destruct (for_each _ _ _) as [run|e] eqn:Hrun; [|done].
  intros ->. by injection Hrun as <-.
Qed.

(** X11. A proof file is accepted for what it says under [master] and
    [stage_hashes]: any JSON object that holds the recomputed master and the
    recomputed stage hashes under these keys, whatever else it holds and in
    whatever order, makes [verify_proof] return [True] without warning. *)
Theorem verify_proof_accepts_recorded (w : World) (path : string) (S0 C : value)
    (V : string) (stages : list pyobject) (items : list (string * value))
    (run run' : BoRRun.t) (p : BoRProof) :
  for_each BoRRun.add_step stages (BoRRun.init S0 C V) = Ok run ->
  BoRRun.finalize run = Ok (p, run') ->
  files w !! path = Some (Some (VDict items)) ->
  dict_lookup "master" items = Some (VStr (master p)) ->
  dict_lookup "stage_hashes" items = Some (VList (VStr <$> stage_hashes p)) ->
  verify_proof w path S0 C V stages = Ok (true, [VerificationSuccessful]).
Proof.
  intros Hrun Hfin Hfile Hm Hsh.
  rewrite (verify_proof_replayed _ _ _ _ _ _ _ _ _ _ Hfile Hrun Hfin).
  cbv zeta. rewrite Hm, Hsh. cbn [default from_option id].
  assert (Heqm : py_eq_str (master p) (VStr (master p)) = true)
    by by apply py_eq_str_true.
  rewrite Heqm. cbn [negb].
  assert (Heq : py_eq_str_list (stage_hashes p) (VList (VStr <$> stage_hashes p))
                = true) by by apply py_eq_str_list_true.
  by rewrite Heq, andb_false_r.
Qed.

End ReplayFile.

(** ** The store, continued *)



Lemma select_latest_snoc_other (label : string) (rows : list row) (r : row) :
  row_label r <> label ->
  ProofStore.select_latest label (rows ++ [r])
    = ProofStore.select_latest label rows.
Proof.
  intros Hne. unfold ProofStore.select_latest. rewrite foldl_app. simpl.
  by destruct (String.eqb_spec (row_label r) label).
Qed.

Lemma select_latest_None (label : string) (rows : list row) :
  ProofStore.select_latest label rows = None ->
  existsb (fun r => String.eqb (row_label r) label) rows = false.
Proof.
  induction rows as [|r rows IH] using rev_ind; [done|].
  rewrite existsb_app. simpl. rewrite orb_false_r.
  destruct (String.eqb_spec (row_label r) label) as [Heq|Hne].
  - unfold ProofStore.select_latest. rewrite foldl_app. simpl.
    rewrite Heq, String.eqb_refl.
    by destruct (foldl _ None rows) as [b|]; [destruct (_ <? _)%nat|].
  - rewrite select_latest_snoc_other by done. intros Hnone%IH.
    by rewrite Hnone.
Qed.


(** X15. [load] raises [FileNotFoundError] for the labels that are not stored
    and for no other: what it raises for a stored label whose content is
    damaged is another exception. *)
Theorem load_not_found_iff (w : World) (self : ProofStore.t)
    (label what : string) :
  ProofStore.ready w self ->
  ProofStore.load w self label = Raise (FileNotFoundError what) <->
  ProofStore.stored w self label = false /\ what = label.
Proof.
  unfold ProofStore.ready, ProofStore.stored, ProofStore.load.
  destruct (ProofStore.use_sqlite self).
  - intros Hready. destruct (Hready eq_refl) as [rows ->].
    destruct (ProofStore.select_latest label rows) as [r|] eqn:Hsel.
    + split.
      * destruct (row_stage_hashes r); discriminate.
      * intros [Hno _]. by rewrite (select_latest_no_match _ _ Hno) in Hsel.
    + split; [|by intros [_ ->]].
      intros [= <-]. split; [|done]. by apply select_latest_None.
  - intros _. destruct (files w !! _) as [text|] eqn:Hfile.
    + split.
      * destruct text as [[| | | | |items]|]; cbn [json_loads bind dict_item];
          try discriminate.
        destruct (dict_lookup "stage_hashes" items); cbn [bind];
          [|discriminate].
        destruct (dict_lookup "master" items); discriminate.
      * intros [Hno%bool_decide_eq_false _]. exfalso. by apply Hno.
    + split; [|by intros [_ ->]].
      intros [= <-]. split; [|done]. apply bool_decide_eq_false_2.
      by intros [? [=]].
Qed.


(** X17. The two modes do not see each other: what is saved through a store in
    one mode changes nothing for a store on the same root in the other
    mode. *)
Theorem save_invisible_to_other_mode (w w' : World) (self : ProofStore.t)
    (label label' path : string) (p : LoadedProof) :
  ProofStore.save w self label p = Ok (w', path) ->
  let other :=
    ProofStore.make (ProofStore.root self) (negb (ProofStore.use_sqlite self)) in
  ProofStore.load w' other label' = ProofStore.load w other label' /\
  ProofStore.stored w' other label' = ProofStore.stored w other label'.
Proof.
  unfold ProofStore.save, ProofStore.load, ProofStore.stored.
  destruct self as [root [|]]; simpl.
  - destruct (tables w !! _) as [rows|]; [|discriminate].
    by intros [= <- <-].
  - by intros [= <- <-].
Qed.

Section StoreAndReplay.
Context `{HashUtils}.

(** X12. What [finalize()] returned and [save] wrote in JSON mode, [verify_proof]
    accepts at the path [save] returned, for the same initial state,
    configuration, version and stages: it returns [True] without warning. *)
Theorem saved_proof_verifies (w w' : World) (self : ProofStore.t)
    (label path : string) (S0 C : value) (V : string)
    (stages : list pyobject) (run run' : BoRRun.t) (p : BoRProof) :
  ProofStore.use_sqlite self = false ->
  for_each BoRRun.add_step stages (BoRRun.init S0 C V) = Ok run ->
  BoRRun.finalize run = Ok (p, run') ->
  ProofStore.save w self label (proof_values p) = Ok (w', path) ->
  verify_proof w' path S0 C V stages = Ok (true, [VerificationSuccessful]).
Proof.
  intros Hmode Hrun Hfin Hsave. unfold ProofStore.save in Hsave.
  rewrite Hmode in Hsave. injection Hsave as <- <-.
  rewrite (verify_proof_replayed _ _ _ _ _ _ _ _ _ _
             (lookup_insert_eq _ _ _) Hrun Hfin).
  cbn. rewrite String.eqb_refl. cbn [negb].
  assert (Heq : py_eq_strs (stage_hashes p) (VStr <$> stage_hashes p) = true)
    by by apply py_eq_strs_true.
  by rewrite Heq, andb_false_r.
Qed.

End StoreAndReplay.

(** ** The command line *)

Lemma rsplit_dot_None (s : string) :
  rsplit_dot s = None <-> has_dot s = false.
Proof.
  induction s as [|c s IH]; [done|]. simpl.
  destruct (rsplit_dot s) as [[m f]|].
  - split; [discriminate|]. intros [_ Hs]%orb_false_iff.
    by apply IH in Hs.
  - destruct (Ascii.eqb c "."); [done|].
    split; [intros _; by apply IH | done].
Qed.

Lemma rsplit_dot_app (m f : string) :
  has_dot f = false -> rsplit_dot (m +:+ "." +:+ f) = Some (m, f).
Proof.
  intros Hf. induction m as [|c m IH].
  - change (rsplit_dot (String "." f) = Some ("", f)). simpl.
    by rewrite (proj2 (rsplit_dot_None f) Hf).
  - change (rsplit_dot (String c (m +:+ "." +:+ f)) = Some (String c m, f)).
    simpl. by rewrite IH.
Qed.

Lemma rsplit_dot_Some (s m f : string) :
  rsplit_dot s = Some (m, f) -> s = m +:+ "." +:+ f /\ has_dot f = false.
Proof.
  revert m. induction s as [|c s IH]; intros m; [discriminate|]. simpl.
  destruct (rsplit_dot s) as [[m' f']|] eqn:Hs.
  - intros [= <- <-]. destruct (IH m' eq_refl) as [-> Hf]. by split.
  - destruct (Ascii.eqb_spec c ".") as [->|Hc]; [|discriminate].
    intros [= <- <-]. split; [done|]. by apply rsplit_dot_None.
Qed.

Section CommandLine.
Context `{HashUtils} `{Importer}.

(** X18. A stage is named by a module and an attribute, split at the last dot:
    [pkg.mod.fn] imports [pkg.mod] and fetches [fn] from it, and a name
    without a dot raises the [ValueError] of the unpacking before anything
    is imported. *)
Theorem stage_name_resolution (s : string) :
  if has_dot s
  then exists m f,
         s = m +:+ "." +:+ f /\ has_dot f = false /\
         resolve_stage s = cli_bind (import_module m) (fun md => getattr md f)
  else resolve_stage s = inl ValueError.
Proof.
  unfold resolve_stage.
  destruct (rsplit_dot s) as [[m f]|] eqn:Hs.
  - pose proof (rsplit_dot_Some s m f Hs) as [-> Hf].
    destruct (has_dot (m +:+ "." +:+ f)) eqn:Hd; [by exists m, f|].
    apply rsplit_dot_None in Hd. congruence.
  - apply rsplit_dot_None in Hs. by rewrite Hs.
Qed.

(** X19. The loop over the names returns exactly when every name resolves, and
    then the functions come in the order of the names, one for each. *)
Theorem resolve_stages_iff (names : list string) (fns : list pyobject) :
  resolve_stages names = inr fns <->
  Forall2 (fun s fn => resolve_stage s = inr fn) names fns.
Proof.
  revert fns. induction names as [|s names IH]; intros fns; simpl.
  - split; [by intros [= <-]; constructor | by inversion 1].
  - destruct (resolve_stage s) as [e|fn] eqn:Hs; simpl.
    + split; [discriminate | inversion 1; congruence].
    + destruct (resolve_stages names) as [e|fns'] eqn:Hrest; simpl.
      * split; [discriminate|]. inversion 1 as [|? fn' ? fns'' Hfn Hall]; subst.
        apply IH in Hall. discriminate.
      * split.
        -- intros [= <-]. constructor; [done | by apply IH].
        -- inversion 1 as [|? fn' ? fns'' Hfn Hall]; subst.
           apply IH in Hall. congruence.
Qed.


End CommandLine.

(** ** The further theorems at concrete inputs *)


Lemma demo_extended_run_reachable :
  BoRRun.reachable (H := Demo.hash_utils) Fixtures.extended_run.
Proof.
  eapply BoRRun.reachable_step; [apply demo_finalized_run_reachable|].
  by eapply (BoRRun.step_add_step _ Tests.square).
Qed.




Lemma summary_of_reachable_run_witness :
  exists fps,
    BoRRun.fingerprints Fixtures.extended_run = Some fps /\
    length fps = 3 /\
    summary Fixtures.extended_run =
      VDict [ ("initial_state", VInt 3);
              ("num_steps", VInt (Z.of_nat (length fps)));
              ("fingerprints", VList (VStr <$> fps));
              ("HMASTER",
                 VStr (Demo.hash (VStr (join (take 2 fps))))) ].
Proof.
  destruct (@summary_of_reachable_run Demo.hash_utils Fixtures.extended_run
              demo_extended_run_reachable) as (fps & Hfps & Hsum).
  exists fps. split; [exact Hfps|]. split; [|exact Hsum].
  vm_compute in Hfps. by injection Hfps as <-.
Defined.

Lemma verify_refreshes_proof_witness :
  BoRRun.proof Fixtures.extended_run = Some Demo.recorded_proof /\
  exists fps,
    BoRRun.fingerprints Fixtures.extended_run = Some fps /\ fps <> [] /\
    Fixtures.verified_run =
      BoRRun.make Tests.S0 Tests.C Tests.V (BoRRun.steps Fixtures.extended_run)
        (VInt 625) (Some (mkProof fps (Demo.hash (VStr (join fps))))).
Proof.
  split; [reflexivity|].
  exact (proj2 (@verify_refreshes_proof Demo.hash_utils Fixtures.extended_run
                  Fixtures.verified_run true eq_refl)).
Defined.

Lemma add_step_leaves_proof_stale_witness :
  BoRRun.proof Fixtures.extended_run = Some Demo.recorded_proof /\
  dict_item (summary Fixtures.extended_run) "HMASTER" = Ok (VStr "47f4") /\
  dict_item (summary Fixtures.extended_run) "num_steps" = Ok (VInt 3) /\
  exists (fp : string) (r3 : BoRRun.t),
    BoRRun.finalize (H := Demo.hash_utils) Fixtures.extended_run
      = Ok (mkProof (["5060"; "a663"] ++ [fp])
                    (Demo.hash (VStr (join (["5060"; "a663"] ++ [fp])))), r3).
Proof.
  exact (@add_step_leaves_proof_stale Demo.hash_utils Demo.recorded_run
           Demo.finalized_run Fixtures.extended_run Demo.recorded_proof
           Tests.square eq_refl eq_refl).
Defined.


Lemma verify_proof_replay_failure_witness :
  verify_proof (H := Demo.hash_utils) (Demo.world_with Demo.good_file)
    "proof.json" (VStr "three") Tests.C Tests.V Fixtures.failing_stages
  = Raise (DeterminismError (StepFailed "square" TypeError)) /\
  verify_proof (H := Demo.hash_utils) (Demo.world_with Demo.good_file)
    "proof.json" Tests.S0 Tests.C Tests.V []
  = Raise (DeterminismError NoStepsAdded).
Proof.
  split.
  - exact (@verify_proof_replay_failure Demo.hash_utils
             (Demo.world_with Demo.good_file) "proof.json" (VStr "three")
             Tests.C Tests.V Fixtures.failing_stages _ eq_refl).
  - exact (@verify_proof_replay_failure Demo.hash_utils
             (Demo.world_with Demo.good_file) "proof.json" Tests.S0
             Tests.C Tests.V [] _ eq_refl eq_refl).
Defined.

Lemma verify_proof_accepts_recorded_witness :
  verify_proof (H := Demo.hash_utils) (Demo.world_with Fixtures.store_file)
    "proof.json" Tests.S0 Tests.C Tests.V Tests.stages
  = Ok (true, [VerificationSuccessful]).
Proof.
  exact (@verify_proof_accepts_recorded Demo.hash_utils
           (Demo.world_with Fixtures.store_file) "proof.json"
           Tests.S0 Tests.C Tests.V Tests.stages _
           Demo.recorded_run Demo.finalized_run Demo.recorded_proof
           eq_refl eq_refl eq_refl eq_refl eq_refl).
Defined.



Lemma load_not_found_iff_witness :
  ProofStore.stored (Demo.saved_world true) (Demo.store true) "run-2" = false /\
  ProofStore.stored (Demo.saved_world true) (Demo.store true) "run-1" = true.
Proof.
  assert (Hready : ProofStore.ready (Demo.saved_world true) (Demo.store true))
    by (intros _; eexists; reflexivity).
  split.
  - exact (proj1 (proj1 (load_not_found_iff (Demo.saved_world true)
                           (Demo.store true) "run-2" "run-2" Hready) eq_refl)).
  - destruct (ProofStore.stored _ _ "run-1") eqn:Hst; [done|]. exfalso.
    pose proof (proj2 (load_not_found_iff (Demo.saved_world true)
                         (Demo.store true) "run-1" "run-1" Hready)
                  (conj Hst eq_refl)) as Hload.
    vm_compute in Hload. discriminate Hload.
Defined.

Lemma demo_save_sqlite :
  ProofStore.save (ProofStore.init (mkWorld ∅ ∅) ".bor_store" true).1
    (Demo.store true) "run-1" (proof_values Demo.recorded_proof)
  = Ok (Demo.saved_world true, ".bor_store/proofs.db").
Proof. vm_compute. reflexivity. Qed.

Lemma demo_save_json :
  ProofStore.save (ProofStore.init (mkWorld ∅ ∅) ".bor_store" false).1
    (Demo.store false) "run-1" (proof_values Demo.recorded_proof)
  = Ok (Demo.saved_world false, ".bor_store/run-1.json").
Proof. vm_compute. reflexivity. Qed.


Lemma save_invisible_to_other_mode_witness :
  ProofStore.load (Demo.saved_world true) (Demo.store false) "run-1"
    = Raise (FileNotFoundError "run-1") /\
  ProofStore.stored (Demo.saved_world true) (Demo.store false) "run-1" = false.
Proof.
  destruct (save_invisible_to_other_mode _ (Demo.saved_world true)
              (Demo.store true) "run-1" "run-1" ".bor_store/proofs.db"
              (proof_values Demo.recorded_proof) demo_save_sqlite)
    as [Hload Hstored].
  split; [exact Hload | exact Hstored].
Defined.

Lemma saved_proof_verifies_witness :
  verify_proof (H := Demo.hash_utils) (Demo.saved_world false)
    ".bor_store/run-1.json" Tests.S0 Tests.C Tests.V Tests.stages
  = Ok (true, [VerificationSuccessful]).
Proof.
  exact (@saved_proof_verifies Demo.hash_utils _
           (Demo.saved_world false) (Demo.store false) "run-1"
           ".bor_store/run-1.json" Tests.S0 Tests.C Tests.V Tests.stages
           Demo.recorded_run Demo.finalized_run Demo.recorded_proof
           eq_refl eq_refl eq_refl demo_save_json).
Defined.

(** The command line on the proof of the tests. *)
Example cli_replays_the_tests :
  _cli (H := Demo.hash_utils) (H0 := DemoImport.importer)
    (Demo.world_with Demo.good_file)
    (DemoImport.args (Some ["steps.add"; "steps.square"]))
  = inr [VerificationSuccessful].
Proof. reflexivity. Qed.

Example cli_rejects_a_name_without_dot :
  _cli (H := Demo.hash_utils) (H0 := DemoImport.importer)
    (Demo.world_with Demo.good_file)
    (DemoImport.args (Some ["steps.add"; "square"]))
  = inl ValueError.
Proof. reflexivity. Qed.

Example cli_rejects_a_constant :
  _cli (H := Demo.hash_utils) (H0 := DemoImport.importer)
    (Demo.world_with Demo.good_file)
    (DemoImport.args (Some ["steps.add"; "steps.LIMIT"]))
  = inl (Uncaught (DeterminismError StepNotCallable)).
Proof. reflexivity. Qed.

Example cli_without_stages :
  _cli (H := Demo.hash_utils) (H0 := DemoImport.importer)
    (Demo.world_with Demo.good_file) (DemoImport.args None)
  = inl (Uncaught (DeterminismError NoStagesSupplied)).
Proof. reflexivity. Qed.
